(** * Scheduling entry points of [src/algorithms.py]

    A shallow embedding of the module [algorithms.py] and the properties
    its specification states about the scheduling entry points.

    The module holds one global, the list [example_schedule], and five
    functions.  Each function reads that global and returns a fresh dict
    with the keys ["schedule"], ["missed_deadlines"] and ["name"].  Python
    functions may raise and may touch the module's globals, so the
    functions live in a small monad of global state and exceptions. *)

From Stdlib Require Import ZArith List String Bool Lia.
Import ListNotations.
Local Open Scope string_scope.
Local Open Scope Z_scope.

(** ** Data *)

(** One dict of the list [example_schedule]; the fields are the dict's keys,
    in the order the source writes them.  Python integers are unbounded. *)
Record ScheduleEntry : Type := mkEntry {
  task_id : Z;
  node_id : Z;
  end_time : Z;
  deadline : Z;
  start_time : Z
}.

(** The dict every entry point returns. *)
Record ScheduleResult : Type := mkResult {
  schedule : list ScheduleEntry;
  missed_deadlines : list Z;
  name : string
}.

(** The source defines no exception class and has no [raise] statement.  The
    constructors are the error kinds the specification names, declared so
    that statements about them can be written; [OtherError] stands for every
    other Python exception. *)
Inductive exn : Type :=
| CyclicDependencyError
| UnknownJobReferenceError
| InfeasiblePolicyInputError
| UnschedulableNodeError
| OtherError (msg : string).

(** The module's globals: the one name bound at module level to a mutable
    object.  The list is shared: every result's ["schedule"] is this object,
    not a copy of it. *)
Record globals : Type := mkGlobals {
  gv_example_schedule : list ScheduleEntry
}.

(** ** The monad of module state and exceptions *)

Module Py.

Definition t (A : Type) : Type := globals -> (exn + A) * globals.

Definition ret {A : Type} (a : A) : t A :=
  fun g => (inr a, g).

Definition bind {A B : Type} (m : t A) (k : A -> t B) : t B :=
  fun g =>
    match m g with
    | (inr a, g') => k a g'
    | (inl e, g') => (inl e, g')
    end.

Definition raise {A : Type} (e : exn) : t A :=
  fun g => (inl e, g).

(** Reading the global name [example_schedule]. *)
Definition load_example_schedule : t (list ScheduleEntry) :=
  fun g => (inr (gv_example_schedule g), g).

(** What a call does when started with globals [g]. *)
Definition returns {A : Type} (m : t A) (g : globals) (a : A) : Prop :=
  fst (m g) = inr a.

Definition raises {A : Type} (m : t A) (g : globals) (e : exn) : Prop :=
  fst (m g) = inl e.

Definition globals_after {A : Type} (m : t A) (g : globals) : globals :=
  snd (m g).

End Py.

Notation "x <- m ;; k" := (Py.bind m (fun x => k))
  (at level 61, m at next level, right associativity).

(** ** The module *)

(** The literal the module binds [example_schedule] to when it is loaded. *)
Definition example_schedule : list ScheduleEntry :=
  [ {| task_id := 3; node_id := 0; end_time := 20; deadline := 256;
       start_time := 0 |};
    {| task_id := 2; node_id := 0; end_time := 40; deadline := 300;
       start_time := 20 |};
    {| task_id := 1; node_id := 0; end_time := 60; deadline := 250;
       start_time := 40 |};
    {| task_id := 0; node_id := 0; end_time := 80; deadline := 250;
       start_time := 60 |} ].

(** The globals right after the module is loaded. *)
Definition module_globals : globals :=
  {| gv_example_schedule := example_schedule |}.

(** The functions never look at their arguments, so they are defined for an
    argument of any type, as a Python function is. *)

Definition ldf_single_node {A : Type} (application_data : A)
  : Py.t ScheduleResult :=
  sched <- Py.load_example_schedule ;;
  Py.ret {| schedule := sched; missed_deadlines := [];
            name := "LDF Single-node" |}.

Definition edf_single_node {A : Type} (application_data : A)
  : Py.t ScheduleResult :=
  sched <- Py.load_example_schedule ;;
  Py.ret {| schedule := sched; missed_deadlines := [];
            name := "EDF Single-node" |}.

Definition ll_multinode_no_delay {A P : Type} (application_data : A)
  (platform_data : P) : Py.t ScheduleResult :=
  sched <- Py.load_example_schedule ;;
  Py.ret {| schedule := sched; missed_deadlines := [];
            name := "LL(without delay)" |}.

Definition ldf_multinode_no_delay {A P : Type} (application_data : A)
  (platform_data : P) : Py.t ScheduleResult :=
  sched <- Py.load_example_schedule ;;
  Py.ret {| schedule := sched; missed_deadlines := [];
            name := "LDF Multinode(without delay)" |}.

Definition edf_multinode_no_delay {A P : Type} (application_data : A)
  (platform_data : P) : Py.t ScheduleResult :=
  sched <- Py.load_example_schedule ;;
  Py.ret {| schedule := sched; missed_deadlines := [];
            name := "EDF Multinode(without delay)" |}.

(** The five functions the module exposes. *)
Inductive entry_point : Type :=
| LDF_single_node
| EDF_single_node
| LL_multinode_no_delay
| LDF_multinode_no_delay
| EDF_multinode_no_delay.

(** Calling an entry point; the single-node ones take no platform. *)
Definition call {A P : Type} (ep : entry_point) (application_data : A)
  (platform_data : P) : Py.t ScheduleResult :=
  match ep with
  | LDF_single_node => ldf_single_node application_data
  | EDF_single_node => edf_single_node application_data
  | LL_multinode_no_delay => ll_multinode_no_delay application_data platform_data
  | LDF_multinode_no_delay => ldf_multinode_no_delay application_data platform_data
  | EDF_multinode_no_delay => edf_multinode_no_delay application_data platform_data
  end.

Definition name_of (ep : entry_point) : string :=
  match ep with
  | LDF_single_node => "LDF Single-node"
  | EDF_single_node => "EDF Single-node"
  | LL_multinode_no_delay => "LL(without delay)"
  | LDF_multinode_no_delay => "LDF Multinode(without delay)"
  | EDF_multinode_no_delay => "EDF Multinode(without delay)"
  end.

(** A run of calls, one after the other, each started in the globals the
    previous one left. *)
Fixpoint globals_after_calls {A P : Type}
  (calls : list (entry_point * A * P)) (g : globals) : globals :=
  match calls with
  | [] => g
  | (ep, app, plat) :: rest =>
      globals_after_calls rest (Py.globals_after (call ep app plat) g)
  end.

(** ** Inputs *)

(** Modelled from the spec: the layout of [application_data] and
    [platform_data].  The source documents them only as dicts holding jobs,
    messages, nodes and links and never reads a key; the fields are those of
    the specification's external interface. *)
Record Job : Type := mkJob {
  job_id : Z;
  execution_time : Z;
  job_deadline : Z
}.

Record Message : Type := mkMessage {
  sender : Z;
  receiver : Z;
  payload_size : Z
}.

Record Application : Type := mkApplication {
  jobs : list Job;
  messages : list Message
}.

Record Link : Type := mkLink {
  link_start : Z;
  link_end : Z;
  link_delay : Z
}.

Record Platform : Type := mkPlatform {
  nodes : list Z;
  links : list Link
}.

(** ** Properties of inputs and schedules *)

(** A path of one or more messages from job [u] to job [v]. *)
Inductive path (ms : list Message) : Z -> Z -> Prop :=
| path_edge : forall m,
    In m ms -> path ms (sender m) (receiver m)
| path_step : forall m w,
    In m ms -> path ms (receiver m) w -> path ms (sender m) w.

Definition cyclic (app : Application) : Prop :=
  exists v, path (messages app) v v.

(** The same, by search: the jobs a message leads to, and whether [v] is
    reached from [u] by at most [n] messages. *)
Definition successors (ms : list Message) (u : Z) : list Z :=
  map receiver (filter (fun m => sender m =? u) ms).

Fixpoint reaches (ms : list Message) (n : nat) (u v : Z) : bool :=
  match n with
  | O => false
  | S n' =>
      existsb (fun w => (w =? v) || reaches ms n' w v) (successors ms u)
  end.

Definition has_cycle (app : Application) : bool :=
  existsb
    (fun m => reaches (messages app) (List.length (messages app)) (sender m) (sender m))
    (messages app).

(** Every message names jobs of the job list. *)
Definition references_known_jobs (app : Application) : Prop :=
  forall m, In m (messages app) ->
    In (sender m) (map job_id (jobs app)) /\
    In (receiver m) (map job_id (jobs app)).

Definition valid_dag (app : Application) : Prop :=
  references_known_jobs app /\ ~ cyclic app.

(** Precedence: an entry starts no earlier than each entry of a predecessor
    of its job ends, plus the transfer delay between the two nodes. *)
Definition precedence_respectedb (ms : list Message) (delay : Z -> Z -> Z)
  (sched : list ScheduleEntry) : bool :=
  forallb
    (fun e =>
       forallb
         (fun m =>
            negb (receiver m =? task_id e) ||
            forallb
              (fun p =>
                 negb (task_id p =? sender m) ||
                 (end_time p + delay (node_id p) (node_id e) <=? start_time e))
              sched)
         ms)
    sched.

Definition no_delay : Z -> Z -> Z := fun _ _ => 0.

(** An entry occupies the node from its start up to, not including, its
    end: two entries that follow one another share no instant. *)
Definition occupies (e : ScheduleEntry) (t : Z) : Prop :=
  start_time e <= t < end_time e.

Definition non_overlapping (sched : list ScheduleEntry) : Prop :=
  forall (i j : nat) (ei ej : ScheduleEntry) (t : Z),
    i <> j ->
    nth_error sched i = Some ei ->
    nth_error sched j = Some ej ->
    node_id ei = node_id ej ->
    ~ (occupies ei t /\ occupies ej t).

(** What a caller sees of an entry: job, node, start and end. *)
Definition placement (e : ScheduleEntry) : Z * Z * Z * Z :=
  (task_id e, node_id e, start_time e, end_time e).

(** Deadline, start and end of an entry. *)
Definition timing (e : ScheduleEntry) : Z * Z * Z :=
  (deadline e, start_time e, end_time e).

(** The jobs of the entries that end after their own deadline. *)
Definition late_entries (sched : list ScheduleEntry) : list Z :=
  map task_id (filter (fun e => deadline e <? end_time e) sched).

(** The entries follow one another on the time line: the first starts at
    [t], each takes some time, and each next one starts when the one before
    it ends. *)
Fixpoint back_to_back (t : Z) (sched : list ScheduleEntry) : bool :=
  match sched with
  | [] => true
  | e :: rest =>
      (start_time e =? t) && (start_time e <? end_time e) &&
      back_to_back (end_time e) rest
  end.

(** ** Concrete inputs *)

(** Three independent jobs. *)
Definition three_jobs : Application :=
  {| jobs := [ {| job_id := 0; execution_time := 10; job_deadline := 15 |};
               {| job_id := 1; execution_time := 20; job_deadline := 100 |};
               {| job_id := 2; execution_time := 30; job_deadline := 50 |} ];
     messages := [] |}.

(** Jobs A, B, C numbered 0, 1, 2 with messages A -> B -> C -> A. *)
Definition abc_cycle : Application :=
  {| jobs := [ {| job_id := 0; execution_time := 10; job_deadline := 100 |};
               {| job_id := 1; execution_time := 10; job_deadline := 100 |};
               {| job_id := 2; execution_time := 10; job_deadline := 100 |} ];
     messages := [ {| sender := 0; receiver := 1; payload_size := 1 |};
                   {| sender := 1; receiver := 2; payload_size := 1 |};
                   {| sender := 2; receiver := 0; payload_size := 1 |} ] |}.

(** Four jobs with one message, from job 0 to job 3. *)
Definition job0_before_job3 : Application :=
  {| jobs := [ {| job_id := 0; execution_time := 20; job_deadline := 250 |};
               {| job_id := 1; execution_time := 20; job_deadline := 250 |};
               {| job_id := 2; execution_time := 20; job_deadline := 300 |};
               {| job_id := 3; execution_time := 20; job_deadline := 256 |} ];
     messages := [ {| sender := 0; receiver := 3; payload_size := 1 |} ] |}.

(** One job that cannot meet its deadline wherever it runs. *)
Definition late_job : Application :=
  {| jobs := [ {| job_id := 7; execution_time := 50; job_deadline := 30 |} ];
     messages := [] |}.

Definition two_nodes : Platform :=
  {| nodes := [0; 1];
     links := [ {| link_start := 0; link_end := 1; link_delay := 5 |} ] |}.

(** ** What every call does *)

Section Calls.

Context {A P : Type}.

(** An entry point returns the list the global is bound to, an empty miss
    list and its own label, and leaves the globals as they were. *)
Lemma call_unfold (ep : entry_point) (app : A) (plat : P) (g : globals) :
  call ep app plat g =
  (inr {| schedule := gv_example_schedule g; missed_deadlines := [];
          name := name_of ep |}, g).
Proof. destruct ep; reflexivity. Qed.

Lemma call_keeps_globals (ep : entry_point) (app : A) (plat : P) (g : globals) :
  Py.globals_after (call ep app plat) g = g.
Proof. unfold Py.globals_after. rewrite call_unfold. reflexivity. Qed.

Lemma calls_keep_globals (calls : list (entry_point * A * P)) (g : globals) :
  globals_after_calls calls g = g.
Proof.
  induction calls as [| [[ep app] plat] rest IH]; simpl.
  - reflexivity.
  - rewrite call_keeps_globals. exact IH.
Qed.

End Calls.

(** The monad can express a raise: the predicates below are not empty. *)
Lemma raise_raises (A : Type) (e : exn) (g : globals) :
  Py.raises (@Py.raise A e) g e.
Proof. reflexivity. Qed.

Lemma returns_not_raises (A : Type) (m : Py.t A) (g : globals) (a : A) (e : exn) :
  Py.returns m g a -> ~ Py.raises m g e.
Proof. unfold Py.returns, Py.raises. intros Hr He. congruence. Qed.

(** ** Cycles *)

Lemma reaches_sound (ms : list Message) (n : nat) :
  forall u v, reaches ms n u v = true -> path ms u v.
Proof.
  induction n as [| n IH]; intros u v H; simpl in H.
  - discriminate.
  - apply existsb_exists in H. destruct H as (w & Hw & Hstep).
    unfold successors in Hw. apply in_map_iff in Hw.
    destruct Hw as (m & Hrecv & Hm). apply filter_In in Hm.
    destruct Hm as (Hin & Hsend). apply Z.eqb_eq in Hsend. subst u w.
    apply orb_true_iff in Hstep. destruct Hstep as [Heq | Hrec].
    + apply Z.eqb_eq in Heq. subst v. now apply path_edge.
    + apply path_step; [assumption | now apply IH].
Qed.

Lemma has_cycle_sound (app : Application) :
  has_cycle app = true -> cyclic app.
Proof.
  unfold has_cycle, cyclic. intros H. apply existsb_exists in H.
  destruct H as (m & _ & Hm). exists (sender m).
  eapply reaches_sound; eassumption.
Qed.

(** With the single message 0 -> 3 every path goes from 0 to 3. *)
Lemma path_job0_before_job3 (u v : Z) :
  path (messages job0_before_job3) u v -> u = 0 /\ v = 3.
Proof.
  induction 1 as [m Hin | m w Hin _ IH].
  - simpl in Hin. destruct Hin as [<- | []]. split; reflexivity.
  - simpl in Hin. destruct Hin as [<- | []]. simpl in IH.
    destruct IH as [H03 _]. discriminate H03.
Qed.

Lemma job0_before_job3_valid : valid_dag job0_before_job3.
Proof.
  split.
  - intros m Hin. simpl in Hin. destruct Hin as [<- | []].
    simpl. split; [left; reflexivity | do 3 right; left; reflexivity].
  - intros (v & Hp). apply path_job0_before_job3 in Hp.
    destruct Hp as [H0 H3]. rewrite H0 in H3. discriminate H3.
Qed.

(** ** The schedule of the module *)

Lemma example_schedule_non_overlapping : non_overlapping example_schedule.
Proof.
  intros i j ei ej t Hij Hi Hj _ [Oi Oj]. unfold occupies in *.
  destruct i as [| [| [| [| i]]]]; simpl in Hi;
    try (destruct i; discriminate Hi); inversion Hi; subst ei; clear Hi;
  destruct j as [| [| [| [| j]]]]; simpl in Hj;
    try (destruct j; discriminate Hj); inversion Hj; subst ej; clear Hj;
  simpl in *; solve [ now apply Hij | lia ].
Qed.

(** As loaded, the module never places an entry on a node other than 0, so
    no two entries of a returned schedule lie on different nodes. *)
Lemma entries_all_on_node_0 (A P : Type) (ep : entry_point) (app : A) (plat : P)
  (r : ScheduleResult) (e : ScheduleEntry) :
  Py.returns (call ep app plat) module_globals r ->
  In e (schedule r) -> node_id e = 0.
Proof.
  unfold Py.returns. rewrite call_unfold. simpl. intros Hr Hin.
  inversion Hr; subst r; clear Hr. simpl in Hin.
  repeat (destruct Hin as [<- | Hin]; [reflexivity |]). destruct Hin.
Qed.

(** ** The claims *)

(** C1.  Three independent jobs with execution times 10, 20, 30 and
    deadlines 15, 100, 50: earliest deadline first would run them in the
    order of the deadlines 15, 50, 100 over [0,10], [10,40], [40,70].
    [edf_single_node] returns instead the four entries of
    [example_schedule], whose deadlines, starts and ends are other ones;
    only the empty miss list agrees. *)
Theorem edf_single_node_three_jobs :
  exists r,
    edf_single_node three_jobs module_globals = (inr r, module_globals) /\
    map timing (schedule r) =
      [(256, 0, 20); (300, 20, 40); (250, 40, 60); (250, 60, 80)] /\
    map timing (schedule r) <> [(15, 0, 10); (50, 10, 40); (100, 40, 70)] /\
    missed_deadlines r = [].
Proof.
  eexists. split; [reflexivity |]. simpl.
  repeat split; try reflexivity. discriminate.
Qed.

(** C2, as the code has it.  For every input whose messages contain a cycle,
    every entry point returns normally with a schedule and the globals
    unchanged; [CyclicDependencyError] is not raised. *)
Theorem cyclic_input_returns_schedule :
  forall (ep : entry_point) (app : Application) (plat : Platform) (g : globals),
    cyclic app ->
    (exists r, call ep app plat g = (inr r, g)) /\
    ~ Py.raises (call ep app plat) g CyclicDependencyError.
Proof.
  intros ep app plat g _. rewrite call_unfold. split.
  - eexists. reflexivity.
  - unfold Py.raises. rewrite call_unfold. simpl. discriminate.
Qed.

Lemma cyclic_input_returns_schedule_abc :
  cyclic abc_cycle /\
  (exists r, call EDF_single_node abc_cycle two_nodes module_globals
             = (inr r, module_globals)) /\
  ~ Py.raises (call EDF_single_node abc_cycle two_nodes) module_globals
      CyclicDependencyError.
Proof.
  split.
  - apply has_cycle_sound. reflexivity.
  - apply (cyclic_input_returns_schedule EDF_single_node abc_cycle two_nodes
             module_globals).
    apply has_cycle_sound. reflexivity.
Defined.

(** C2, as the claim states it, fails: the messages A -> B -> C -> A form a
    cycle, and [edf_single_node] does not raise [CyclicDependencyError] on
    them but returns a schedule. *)
Lemma cycle_is_not_rejected :
  cyclic abc_cycle /\
  ~ Py.raises (edf_single_node abc_cycle) module_globals CyclicDependencyError /\
  Py.returns (edf_single_node abc_cycle) module_globals
    {| schedule := example_schedule; missed_deadlines := [];
       name := "EDF Single-node" |}.
Proof.
  split; [apply has_cycle_sound; reflexivity |].
  split; [discriminate | reflexivity].
Qed.

(** C3.  The four jobs with the one message 0 -> 3 are a valid DAG, and for
    every entry point the returned schedule breaks precedence even with no
    transfer delay: job 3 starts at 0, its predecessor job 0 ends at 80. *)
Theorem precedence_violated_job0_before_job3 :
  valid_dag job0_before_job3 /\
  forall ep : entry_point,
    exists r,
      call ep job0_before_job3 two_nodes module_globals = (inr r, module_globals) /\
      precedence_respectedb (messages job0_before_job3) no_delay (schedule r)
        = false /\
      In {| task_id := 3; node_id := 0; end_time := 20; deadline := 256;
            start_time := 0 |} (schedule r) /\
      In {| task_id := 0; node_id := 0; end_time := 80; deadline := 250;
            start_time := 60 |} (schedule r).
Proof.
  split; [exact job0_before_job3_valid |].
  intros ep. eexists. split; [apply call_unfold |]. simpl.
  split; [reflexivity |]. split; [left; reflexivity |].
  do 3 right. left. reflexivity.
Qed.

(** C4.  A single job with execution time 50 and deadline 30 ends after its
    deadline wherever it runs, yet every entry point returns an empty miss
    list: the job's id is not in it. *)
Theorem late_job_not_reported :
  forall ep : entry_point,
    exists r,
      call ep late_job two_nodes module_globals = (inr r, module_globals) /\
      missed_deadlines r = [] /\
      ~ In 7 (missed_deadlines r).
Proof.
  intros ep. eexists. split; [apply call_unfold |]. simpl.
  split; [reflexivity | intros []].
Qed.

(** C6.  For every input, [edf_single_node] and [ldf_single_node] return,
    and in each returned schedule no two entries on the same node occupy a
    common instant. *)
Theorem single_node_entries_never_overlap :
  forall (A : Type) (application_data : A),
    exists r_edf r_ldf,
      Py.returns (edf_single_node application_data) module_globals r_edf /\
      Py.returns (ldf_single_node application_data) module_globals r_ldf /\
      non_overlapping (schedule r_edf) /\
      non_overlapping (schedule r_ldf).
Proof.
  intros A application_data. do 2 eexists.
  split; [reflexivity |]. split; [reflexivity |].
  split; exact example_schedule_non_overlapping.
Qed.

Lemma single_node_entries_never_overlap_first_two :
  ~ (occupies {| task_id := 3; node_id := 0; end_time := 20; deadline := 256;
                 start_time := 0 |} 20 /\
     occupies {| task_id := 2; node_id := 0; end_time := 40; deadline := 300;
                 start_time := 20 |} 20).
Proof.
  destruct (single_node_entries_never_overlap Application three_jobs)
    as (r_edf & r_ldf & Hedf & _ & Hno & _).
  unfold Py.returns in Hedf. simpl in Hedf.
  injection Hedf as <-.
  apply (Hno 0%nat 1%nat); [discriminate | reflexivity | reflexivity | reflexivity].
Defined.

(** C7.  Two invocations of an entry point with the same inputs give the
    same outcome (entries in the same order, miss list, name), whatever the
    globals were at the first one and whatever entry-point calls were made
    in between. *)
Theorem entry_points_deterministic :
  forall (A P : Type) (ep : entry_point) (application_data : A)
         (platform_data : P) (between : list (entry_point * A * P))
         (g : globals),
    fst (call ep application_data platform_data g) =
    fst (call ep application_data platform_data
           (globals_after_calls between
              (Py.globals_after (call ep application_data platform_data) g))).
Proof.
  intros A P ep app plat between g.
  rewrite calls_keep_globals, call_keeps_globals. reflexivity.
Qed.

(** C8.  In the module as loaded, each of the five functions returns, for
    every input, the four entries with task ids 3, 2, 1, 0 on node 0 over
    (0,20), (20,40), (40,60), (60,80), an empty miss list and its own name;
    and in any globals the outcome is the same for any two inputs. *)
Theorem entry_points_constant :
  map placement example_schedule =
    [(3, 0, 0, 20); (2, 0, 20, 40); (1, 0, 40, 60); (0, 0, 60, 80)] /\
  (forall (A P : Type) (application_data : A) (platform_data : P),
     ldf_single_node application_data module_globals =
       (inr {| schedule := example_schedule; missed_deadlines := [];
               name := "LDF Single-node" |}, module_globals) /\
     edf_single_node application_data module_globals =
       (inr {| schedule := example_schedule; missed_deadlines := [];
               name := "EDF Single-node" |}, module_globals) /\
     ll_multinode_no_delay application_data platform_data module_globals =
       (inr {| schedule := example_schedule; missed_deadlines := [];
               name := "LL(without delay)" |}, module_globals) /\
     ldf_multinode_no_delay application_data platform_data module_globals =
       (inr {| schedule := example_schedule; missed_deadlines := [];
               name := "LDF Multinode(without delay)" |}, module_globals) /\
     edf_multinode_no_delay application_data platform_data module_globals =
       (inr {| schedule := example_schedule; missed_deadlines := [];
               name := "EDF Multinode(without delay)" |}, module_globals)) /\
  (forall (A A' P P' : Type) (ep : entry_point) (app : A) (app' : A')
          (plat : P) (plat' : P') (g : globals),
     call ep app plat g = call ep app' plat' g).
Proof.
  split; [reflexivity |]. split.
  - intros A P application_data platform_data. repeat split.
  - intros A A' P P' ep app app' plat plat' g.
    rewrite !call_unfold. reflexivity.
Qed.

(** C9.  No entry point raises: for every input and in any globals each of
    them returns a result, so none of the four error kinds, nor any other
    exception, comes out of a call. *)
Theorem entry_points_never_raise :
  forall (A P : Type) (ep : entry_point) (application_data : A)
         (platform_data : P) (g : globals),
    (exists r, Py.returns (call ep application_data platform_data) g r) /\
    (forall e : exn, ~ Py.raises (call ep application_data platform_data) g e).
Proof.
  intros A P ep app plat g. unfold Py.returns, Py.raises.
  rewrite call_unfold. simpl. split.
  - eexists. reflexivity.
  - intros e. discriminate.
Qed.

(** C10.  For every input and in any globals, [edf_single_node] and
    [ldf_single_node] return results with the same schedule and the same
    miss list, and different names. *)
Theorem edf_ldf_single_node_equivalent :
  forall (A : Type) (application_data : A) (g : globals),
    exists r_edf r_ldf,
      edf_single_node application_data g = (inr r_edf, g) /\
      ldf_single_node application_data g = (inr r_ldf, g) /\
      schedule r_edf = schedule r_ldf /\
      missed_deadlines r_edf = missed_deadlines r_ldf /\
      name r_edf <> name r_ldf.
Proof.
  intros A application_data g. do 2 eexists.
  split; [reflexivity |]. split; [reflexivity |]. simpl.
  split; [reflexivity |]. split; [reflexivity | discriminate].
Qed.

(** ** Further properties of the module *)

(** What [precedence_respectedb] decides, entry by entry. *)
Lemma precedence_respectedb_spec (ms : list Message) (delay : Z -> Z -> Z)
  (sched : list ScheduleEntry) :
  precedence_respectedb ms delay sched = true <->
  (forall e m p,
     In e sched -> In m ms -> In p sched ->
     receiver m = task_id e -> task_id p = sender m ->
     end_time p + delay (node_id p) (node_id e) <= start_time e).
Proof.
  unfold precedence_respectedb. split.
  - intros H e m p He Hm Hp Hr Hs.
    rewrite forallb_forall in H. specialize (H e He).
    rewrite forallb_forall in H. specialize (H m Hm).
    apply orb_true_iff in H. destruct H as [H | H].
    + apply negb_true_iff, Z.eqb_neq in H. contradiction.
    + rewrite forallb_forall in H. specialize (H p Hp).
      apply orb_true_iff in H. destruct H as [H | H].
      * apply negb_true_iff, Z.eqb_neq in H. contradiction.
      * now apply Z.leb_le in H.
  - intros H. apply forallb_forall. intros e He.
    apply forallb_forall. intros m Hm.
    destruct (Z.eqb_spec (receiver m) (task_id e)) as [Hr | Hr]; simpl;
      [| reflexivity].
    apply forallb_forall. intros p Hp.
    destruct (Z.eqb_spec (task_id p) (sender m)) as [Hs | Hs]; simpl;
      [| reflexivity].
    apply Z.leb_le. now apply (H e m p).
Qed.

(** An entry of [example_schedule] for task [k] runs over
    [60 - 20k, 80 - 20k] on node 0, and [k] is one of 0, 1, 2, 3. *)
Lemma example_schedule_entry (e : ScheduleEntry) :
  In e example_schedule ->
  0 <= task_id e <= 3 /\ node_id e = 0 /\
  start_time e = 60 - 20 * task_id e /\ end_time e = 80 - 20 * task_id e.
Proof.
  simpl. intros H.
  repeat (destruct H as [<- | H]; [simpl; lia |]). destruct H.
Qed.

Lemma example_schedule_has_task (k : Z) :
  0 <= k <= 3 -> exists e, In e example_schedule /\ task_id e = k.
Proof.
  intros Hk.
  assert (Hcases : k = 0 \/ k = 1 \/ k = 2 \/ k = 3) by lia.
  destruct Hcases as [-> | [-> | [-> | ->]]].
  - exists (mkEntry 0 0 80 250 60). simpl. tauto.
  - exists (mkEntry 1 0 60 250 40). simpl. tauto.
  - exists (mkEntry 2 0 40 300 20). simpl. tauto.
  - exists (mkEntry 3 0 20 256 0). simpl. tauto.
Qed.

(** X1.  After any run of entry-point calls on the module as loaded, every
    entry point still returns the four entries of [example_schedule], an
    empty miss list and its own name, and the globals are those of the
    loaded module: no call rebinds or changes the shared list. *)
Theorem entry_points_constant_after_calls :
  forall (A P : Type) (history : list (entry_point * A * P))
         (ep : entry_point) (application_data : A) (platform_data : P),
    globals_after_calls history module_globals = module_globals /\
    call ep application_data platform_data
         (globals_after_calls history module_globals) =
      (inr {| schedule := example_schedule; missed_deadlines := [];
              name := name_of ep |}, module_globals).
Proof.
  intros A P history ep app plat.
  rewrite calls_keep_globals. split; [reflexivity |].
  rewrite call_unfold. reflexivity.
Qed.

(** X2.  In any globals and for any inputs, two entry points return results
    with the same schedule and the same miss list, and the two names are
    equal exactly when the two entry points are the same one: the name
    alone tells which policy was called. *)
Theorem entry_points_differ_only_in_name :
  forall (A P A' P' : Type) (ep1 ep2 : entry_point)
         (app : A) (plat : P) (app' : A') (plat' : P') (g : globals),
    exists r1 r2,
      call ep1 app plat g = (inr r1, g) /\
      call ep2 app' plat' g = (inr r2, g) /\
      schedule r1 = schedule r2 /\
      missed_deadlines r1 = missed_deadlines r2 /\
      (name r1 = name r2 <-> ep1 = ep2).
Proof.
  intros A P A' P' ep1 ep2 app plat app' plat' g.
  do 2 eexists. split; [apply call_unfold |]. split; [apply call_unfold |].
  simpl. split; [reflexivity |]. split; [reflexivity |].
  split.
  - destruct ep1, ep2; simpl; intros H; try reflexivity; discriminate H.
  - intros ->. reflexivity.
Qed.

(** X3.  With no transfer delay, the schedule every entry point returns in
    the module as loaded respects the precedence of a message list exactly
    when every message between two of the jobs 0, 1, 2, 3 goes from a
    higher job id to a lower one; messages that name another job do not
    matter. *)
Theorem precedence_respected_iff_descending :
  forall (ms : list Message),
    precedence_respectedb ms no_delay example_schedule = true <->
    (forall m, In m ms ->
       0 <= sender m <= 3 -> 0 <= receiver m <= 3 ->
       receiver m < sender m).
Proof.
  intros ms. rewrite precedence_respectedb_spec. unfold no_delay. split.
  - intros H m Hm Hs Hr.
    destruct (example_schedule_has_task (receiver m) Hr) as (e & He & Hte).
    destruct (example_schedule_has_task (sender m) Hs) as (p & Hp & Htp).
    specialize (H e m p He Hm Hp (eq_sym Hte) Htp).
    destruct (example_schedule_entry e He) as (_ & _ & Hse & _).
    destruct (example_schedule_entry p Hp) as (_ & _ & _ & Hep).
    lia.
  - intros H e m p He Hm Hp Hr Hs.
    destruct (example_schedule_entry e He) as (Hbe & _ & Hse & _).
    destruct (example_schedule_entry p Hp) as (Hbp & _ & _ & Hep).
    assert (Hlt : receiver m < sender m) by (apply H; [assumption | lia | lia]).
    lia.
Qed.

(** X4.  For every input and entry point, in the module as loaded, the miss
    list agrees with the returned entries: it holds exactly the jobs of the
    entries that end after their own deadline, and there is none. *)
Theorem missed_deadlines_match_schedule :
  forall (A P : Type) (ep : entry_point) (application_data : A)
         (platform_data : P),
    exists r,
      call ep application_data platform_data module_globals
        = (inr r, module_globals) /\
      missed_deadlines r = late_entries (schedule r) /\
      Forall (fun e => end_time e <= deadline e) (schedule r).
Proof.
  intros A P ep app plat. eexists. split; [apply call_unfold |]. simpl.
  split; [reflexivity |].
  repeat constructor; simpl; lia.
Qed.

(** X5.  For every input and entry point, in the module as loaded, the
    returned entries fill the time line from 0 to 80 back to back, each
    taking some time, and no job has two entries. *)
Theorem schedule_back_to_back :
  forall (A P : Type) (ep : entry_point) (application_data : A)
         (platform_data : P),
    exists r,
      call ep application_data platform_data module_globals
        = (inr r, module_globals) /\
      back_to_back 0 (schedule r) = true /\
      last (map end_time (schedule r)) 0 = 80 /\
      NoDup (map task_id (schedule r)).
Proof.
  intros A P ep app plat. eexists. split; [apply call_unfold |]. simpl.
  split; [reflexivity |]. split; [reflexivity |].
  repeat constructor; simpl; intuition discriminate.
Qed.
